(** * The function controller of the laf server

    A shallow embedding of [server/src/function/function.controller.ts]:
    the six request handlers of [FunctionController] are written as
    programs over the awaited calls they make to [FunctionService] and
    [BundleService].  Those two services, the DTO classes, [ResponseUtil]
    and the i18n helper are imported by the controller but are not part
    of the sources at hand; they appear here either as parameters or as
    definitions modelled from the design document, each marked as such. *)

From Stdlib Require Import ZArith String List Lia.
From stdpp Require Import base option gmap strings list fin_maps.

Local Open Scope string_scope.
Local Open Scope Z_scope.

(** ** Values exchanged with the caller *)

(** Arguments handed to the translation helper: [{ args: { name } }],
    [{ args: { count } }]. *)
Inductive Arg : Type :=
| ArgString (s : string)
| ArgNumber (n : Z).

(** What ends up in the [error] field of a response or in the message of
    an exception: the plain string produced by [dto.validate()], or a
    translation key together with its arguments.  Keeping key and
    arguments apart makes a message carry at least as much as any
    translated text built from them. *)
Inductive Message : Type :=
| Text (s : string)
| Translated (key : string) (args : list (string * Arg)).

Module i18n.
Definition t (key : string) (args : list (string * Arg)) : Message :=
  Translated key args.
End i18n.

Module HttpStatus.
Definition NOT_FOUND : Z := 404.
End HttpStatus.

(** [throw new HttpException(message, status)], and the rejection of an
    awaited service promise, which the handlers never catch. *)
Inductive Exception : Type :=
| HttpException (message : Message) (status : Z)
| ServiceRejection (reason : string).

(** [ResponseUtil.ok(data)] and [ResponseUtil.error(message)]. *)
Module ResponseUtil.
Inductive t (T : Type) : Type :=
| ok (data : T)
| error (message : Message).
Arguments ok {T} data.
Arguments error {T} message.

End ResponseUtil.

(** ** Records seen by the controller *)

(** The controller handles functions, artifacts and DTOs as opaque
    values, apart from [dto.name], [dto.code], [req.user.id] and the
    bundle's [resource.limitCountOfCloudFunction]; the classes that
    declare them are not among the sources. *)

(** Modelled from the spec: the identity of a function, the unique pair
    [(applicationId, name)]. *)
Definition FunctionId : Type := string * string.

(** Modelled from the spec: an artifact, the immutable compiled bundle
    keyed by [(functionId, version)], with the hash of its content. *)
Record Artifact : Type := mkArtifact {
  art_function : FunctionId;
  art_version : N;
  art_content : string;
  art_hash : N
}.

(** Modelled from the spec: [CompileError{reason, diagnostics}]. *)
Record CompileError : Type := mkCompileError {
  reason : string;
  diagnostics : list string
}.

(** Modelled from the spec: a function, with its current source text,
    its version counter, the reference to its latest compiled artifact
    (none until the first successful compile) and the mark of a soft
    delete. *)
Record Function : Type := mkFunction {
  fn_appid : string;
  fn_name : string;
  fn_source : string;
  fn_version : N;
  currentArtifact : option Artifact;
  fn_deleted : bool
}.

Definition fn_id (f : Function) : FunctionId := (fn_appid f, fn_name f).

(** The resource bundle of an application; every level may be missing,
    as the optional chaining in the controller allows for. *)
Record BundleResource : Type := mkBundleResource {
  limitCountOfCloudFunction : option Z
}.

Record Bundle : Type := mkBundle {
  resource : option BundleResource
}.

(** The request bodies: [CreateFunction(appId, name, source)],
    [UpdateFunction(appId, name, source)] and the [code] of a compile
    request, which may be missing. *)
Module CreateFunctionDto.
Record t : Type := mk { name : string; source : string }.
End CreateFunctionDto.

Module UpdateFunctionDto.
Record t : Type := mk { source : string }.
End UpdateFunctionDto.

Module CompileFunctionDto.
Record t : Type := mk { code : option string }.
End CompileFunctionDto.

Module IRequest.
Record User : Type := mkUser { id : string }.
Record t : Type := mk { user : User }.
End IRequest.

(** Modelled from the spec: what the compile of the function service
    resolves to, [Artifact | CompileError]. *)
Inductive CompileResult : Type :=
| Compiled (a : Artifact)
| CompileFailed (e : CompileError).

(** ** JavaScript operators used by the controller *)

(** [!s] on an optional string: [undefined], [null] and [''] are falsy. *)
Definition falsy_string (s : option string) : bool :=
  match s with
  | None => true
  | Some c => if decide (c = "") then true else false
  end.

(** [if (s)] on an optional string: the string the test lets through,
    if any; [undefined], [null] and [''] do not pass. *)
Definition truthy_string (s : option string) : option string :=
  match s with
  | None => None
  | Some c => if decide (c = "") then None else Some c
  end.

(** [v || d] on an optional number: [undefined], [null] and [0] are
    falsy. *)
Definition js_or (v : option Z) (d : Z) : Z :=
  match v with
  | None => d
  | Some n => if n =? 0 then d else n
  end.

(** [bundle?.resource?.limitCountOfCloudFunction]. *)
Definition bundle_limit (bundle : option Bundle) : option Z :=
  b ← bundle; r ← resource b; limitCountOfCloudFunction r.

(** ** Awaited calls and handler programs *)

(** The service methods a handler awaits, indexed by what the promise
    resolves to.  A value tested with [if (!res)] is an [option]. *)
Inductive ServiceCall : Type -> Type :=
| FindOne (appid name : string) : ServiceCall (option Function)
| FindAll (appid : string) : ServiceCall (list Function)
| Count (appid : string) : ServiceCall Z
| Create (appid userid : string) (dto : CreateFunctionDto.t) :
    ServiceCall (option Function)
| Update (func : Function) (dto : UpdateFunctionDto.t) :
    ServiceCall (option Function)
| Remove (func : Function) : ServiceCall (option Function)
| Compile (func : Function) (dto : CompileFunctionDto.t) :
    ServiceCall CompileResult
| FindApplicationBundle (appid : string) : ServiceCall (option Bundle).

(** An [async] method body: it returns, throws, or awaits a service call
    and continues with the resolved value. *)
Inductive Async (R : Type) : Type :=
| Return (r : R)
| Throw (e : Exception)
| Await {X : Type} (call : ServiceCall X) (k : X -> Async R).
Arguments Return {R} r.
Arguments Throw {R} e.
Arguments Await {R X} call k.

Notation "x <- 'await' c ;; k" := (Await c (fun x => k))
  (at level 100, c at next level, right associativity).

(** ** The controller *)

Module FunctionController.
Section Controller.

(** [CreateFunctionDto.validate()]: the DTO class is not among the
    sources, so its check is a parameter; it yields the error text, or
    nothing when the request is acceptable.  The handler tests the
    result with [if (error)], so an empty text counts as no error. *)
Variable validate : CreateFunctionDto.t -> option string.

Definition create (appid : string) (dto : CreateFunctionDto.t)
    (req : IRequest.t) : Async (ResponseUtil.t Function) :=
  match truthy_string (validate dto) with
  | Some error => Return (ResponseUtil.error (Text error))
  | None =>
    (* check name is unique *)
    found <- await FindOne appid (CreateFunctionDto.name dto) ;;
    match found with
    | Some _ =>
      Return (ResponseUtil.error
        (i18n.t "function.create.nameExist"
           [("name", ArgString (CreateFunctionDto.name dto))]))
    | None =>
      (* check if meet the count limit *)
      bundle <- await FindApplicationBundle appid ;;
      let MAX_FUNCTION_COUNT := js_or (bundle_limit bundle) 0 in
      count <- await Count appid ;;
      if count >=? MAX_FUNCTION_COUNT then
        Return (ResponseUtil.error
          (i18n.t "function.create.maxCount"
             [("count", ArgNumber MAX_FUNCTION_COUNT)]))
      else
        res <- await Create appid (IRequest.id (IRequest.user req)) dto ;;
        match res with
        | None =>
          Return (ResponseUtil.error (i18n.t "function.create.error" []))
        | Some f => Return (ResponseUtil.ok f)
        end
    end
  end.

Definition findAll (appid : string) :
    Async (ResponseUtil.t (list Function)) :=
  data <- await FindAll appid ;;
  Return (ResponseUtil.ok data).

Definition notFound (name : string) : Exception :=
  HttpException
    (i18n.t "function.common.notFound" [("name", ArgString name)])
    HttpStatus.NOT_FOUND.

Definition findOne (appid name : string) :
    Async (ResponseUtil.t Function) :=
  data <- await FindOne appid name ;;
  match data with
  | None => Throw (notFound name)
  | Some f => Return (ResponseUtil.ok f)
  end.

Definition update (appid name : string) (dto : UpdateFunctionDto.t) :
    Async (ResponseUtil.t Function) :=
  func <- await FindOne appid name ;;
  match func with
  | None => Throw (notFound name)
  | Some func =>
    res <- await Update func dto ;;
    match res with
    | None =>
      Return (ResponseUtil.error (i18n.t "function.update.error" []))
    | Some f => Return (ResponseUtil.ok f)
    end
  end.

Definition remove (appid name : string) :
    Async (ResponseUtil.t Function) :=
  func <- await FindOne appid name ;;
  match func with
  | None => Throw (notFound name)
  | Some func =>
    res <- await Remove func ;;
    match res with
    | None =>
      Return (ResponseUtil.error (i18n.t "function.delete.error" []))
    | Some f => Return (ResponseUtil.ok f)
    end
  end.

Definition compile (appid name : string) (dto : CompileFunctionDto.t) :
    Async (ResponseUtil.t CompileResult) :=
  if falsy_string (CompileFunctionDto.code dto) then
    Return (ResponseUtil.error (i18n.t "function.compile.codeRequired" []))
  else
    func <- await FindOne appid name ;;
    match func with
    | None => Throw (notFound name)
    | Some func =>
      res <- await Compile func dto ;;
      Return (ResponseUtil.ok res)
    end.

End Controller.
End FunctionController.

(** ** Running a handler *)

(** A promise settles: it is fulfilled with a value or rejected. *)
Inductive Settled (X : Type) : Type :=
| Fulfilled (x : X)
| Rejected (e : Exception).
Arguments Fulfilled {X} x.
Arguments Rejected {X} e.

(** How a handler ends: with the value it returns or the exception that
    leaves it. *)
Inductive Outcome (R : Type) : Type :=
| Returned (r : R)
| Raised (e : Exception).
Arguments Returned {R} r.
Arguments Raised {R} e.

(** One awaited call, as recorded in the trace of a run. *)
Inductive Event : Type :=
| Called {X : Type} (call : ServiceCall X).

(** The calls that make up the quota check of [create]: the bundle lookup
    and the count. *)
Definition is_quota_check (e : Event) : bool :=
  match e with
  | Called (FindApplicationBundle _) | Called (Count _) => true
  | Called _ => false
  end.

(** The calls through which a handler changes stored functions. *)
Definition is_write (e : Event) : bool :=
  match e with
  | Called (Create _ _ _) | Called (Update _ _)
  | Called (Remove _) | Called (Compile _ _) => true
  | Called _ => false
  end.

(** A [create] call that stores a function named [(appid, name)]. *)
Definition creates_name (appid name : string) (e : Event) : bool :=
  match e with
  | Called (Create a _ dto) =>
    bool_decide ((a, CreateFunctionDto.name dto) = (appid, name))
  | Called _ => false
  end.

Section Run.

Context {Σ : Type}.

(** The services behind the controller: every call settles and may
    change the state [Σ] the services keep. *)
Definition Services : Type :=
  forall X : Type, ServiceCall X -> Σ -> Settled X * Σ.

Variable svc : Services.

(** A handler run to completion with no other handler in between.  It
    yields the outcome, the final state and the calls made, in order. *)
Fixpoint run {R : Type} (p : Async R) (s : Σ) : Outcome R * Σ * list Event :=
  match p with
  | Return r => (Returned r, s, [])
  | Throw e => (Raised e, s, [])
  | Await c k =>
    match svc _ c s with
    | (Fulfilled v, s') =>
      let '(o, s'', tr) := run (k v) s' in (o, s'', Called c :: tr)
    | (Rejected e, s') => (Raised e, s', [Called c])
    end
  end.

(** One turn of a handler on the event loop: it runs up to and including
    its next awaited call, which acts on the state atomically. *)
Definition turn {R : Type} (p : Async R) (s : Σ) : Async R * Σ :=
  match p with
  | Await c k =>
    match svc _ c s with
    | (Fulfilled v, s') => (k v, s')
    | (Rejected e, s') => (Throw e, s')
    end
  | _ => (p, s)
  end.

(** [n] turns in a row of one handler. *)
Fixpoint turns {R : Type} (n : nat) (p : Async R) (s : Σ) : Async R * Σ :=
  match n with
  | O => (p, s)
  | S n' => let '(p', s') := turn p s in turns n' p' s'
  end.

(** Several requests in flight: the schedule names, turn by turn, the
    handler that proceeds. *)
Fixpoint interleave {R : Type} (schedule : list nat)
    (pool : list (Async R)) (s : Σ) : list (Async R) * Σ :=
  match schedule with
  | [] => (pool, s)
  | i :: rest =>
    match pool !! i with
    | Some p =>
      let '(p', s') := turn p s in interleave rest (<[i := p']> pool) s'
    | None => interleave rest pool s
    end
  end.

(** Requests handled one after another, each to completion. *)
Fixpoint serial {R : Type} (ps : list (Async R)) (s : Σ) :
    list (Outcome R) * Σ :=
  match ps with
  | [] => ([], s)
  | p :: rest =>
    let '(o, s', _) := run p s in
    let '(os, s'') := serial rest s' in (o :: os, s'')
  end.

(** What a finished handler ended with. *)
Definition finished {R : Type} (p : Async R) : option (Outcome R) :=
  match p with
  | Return r => Some (Returned r)
  | Throw e => Some (Raised e)
  | Await _ _ => None
  end.

End Run.

(** ** The services, from the design document *)

(** Modelled from the spec: the Artifact Compiler's syntax and size
    validation, its translation of source text into bundle content and
    its content hash are not among the sources and the design document
    fixes none of them; they are left open as an interface. *)
Class ArtifactBackend : Type := {
  diagnose : string -> option CompileError;
  transpile : string -> string;
  digest : string -> N
}.

(** Modelled from the spec: the record store behind [FunctionService] and
    [BundleService] (neither is among the sources).  Functions are unique
    by [(applicationId, name)]; bundles are looked up by application;
    artifact rows are only ever added; a successful compile enqueues a
    reconciliation request for the owning application. *)
Record Store : Type := mkStore {
  functions : gmap FunctionId Function;
  bundles : gmap string Bundle;
  artifacts : list Artifact;
  reconcileQueue : list string
}.

(** The store with its functions replaced. *)
Definition with_functions (fs : gmap FunctionId Function) (st : Store) :
    Store :=
  mkStore fs (bundles st) (artifacts st) (reconcileQueue st).

Module Registry.
Section Registry.

Context `{backend : ArtifactBackend}.

(** Modelled from the spec: [FunctionService.findOne], the lookup behind
    [GetFunction]; a soft-deleted function is not found. *)
Definition findOne (appid name : string) (st : Store) : option Function :=
  f ← functions st !! (appid, name);
  if fn_deleted f then None else Some f.

(** The active functions of an application: stored under its id and not
    soft-deleted. *)
Definition active_in (appid : string) (kv : FunctionId * Function) : Prop :=
  kv.1.1 = appid /\ fn_deleted kv.2 = false.

#[global] Instance active_in_dec appid kv : Decision (active_in appid kv).
Proof. unfold active_in. apply _. Defined.

(** Modelled from the spec: the usage count, the number of active
    functions of the application, computed from the stored functions. *)
Definition count (appid : string) (st : Store) : Z :=
  Z.of_nat (size (filter (active_in appid) (functions st))).

(** Modelled from the spec: [ListFunctions]. *)
Definition findAll (appid : string) (st : Store) : list Function :=
  (map_to_list (filter (active_in appid) (functions st))).*2.

(** Modelled from the spec: the resource-bundle lookup of
    [BundleService.findApplicationBundle]. *)
Definition findApplicationBundle (appid : string) (st : Store) :
    option Bundle :=
  bundles st !! appid.

(** Modelled from the spec: the function a [create] starts from, at
    "version 0 and no artifact". *)
Definition fresh (appid : string) (dto : CreateFunctionDto.t) : Function :=
  mkFunction appid (CreateFunctionDto.name dto)
    (CreateFunctionDto.source dto) 0 None false.

(** Modelled from the spec: the write of [create], which "persists
    Function with version 0 and no artifact, returns it".  The name and
    quota checks are the controller's, before this call. *)
Definition create (appid : string) (dto : CreateFunctionDto.t)
    (st : Store) : option Function * Store :=
  (Some (fresh appid dto),
   with_functions (<[(appid, CreateFunctionDto.name dto) := fresh appid dto]>
                     (functions st)) st).

(** Modelled from the spec: [update] "increments version" and stores the
    new source; it does not recompile. *)
Definition update (func : Function) (dto : UpdateFunctionDto.t)
    (st : Store) : option Function * Store :=
  match findOne (fn_appid func) (fn_name func) st with
  | Some g =>
    let g' := mkFunction (fn_appid g) (fn_name g)
                (UpdateFunctionDto.source dto) (fn_version g + 1)
                (currentArtifact g) false in
    (Some g', with_functions (<[fn_id func := g']> (functions st)) st)
  | None => (None, st)
  end.

(** Modelled from the spec: [remove] "soft-deletes"; the usage count,
    being computed from the active functions, drops with it. *)
Definition remove (func : Function) (st : Store) :
    option Function * Store :=
  match findOne (fn_appid func) (fn_name func) st with
  | Some g =>
    let g' := mkFunction (fn_appid g) (fn_name g) (fn_source g)
                (fn_version g) (currentArtifact g) true in
    (Some g, with_functions (<[fn_id func := g']> (functions st)) st)
  | None => (None, st)
  end.

(** Modelled from the spec: the Artifact Compiler's
    [compile(function, sourceCode) -> Artifact | CompileError]: it
    validates the source, hashes the content it produces, adds one
    artifact row and leaves the function's current pointer alone. *)
Definition artifactCompile (func : Function) (sourceCode : string)
    (st : Store) : CompileResult * Store :=
  match diagnose sourceCode with
  | Some e => (CompileFailed e, st)
  | None =>
    let content := transpile sourceCode in
    let a := mkArtifact (fn_id func) (fn_version func) content
               (digest content) in
    (Compiled a,
     mkStore (functions st) (bundles st) (artifacts st ++ [a])
       (reconcileQueue st))
  end.

(** Modelled from the spec: "sets Function.currentArtifact = new
    artifact". *)
Definition set_current (a : Artifact) (f : Function) : Function :=
  mkFunction (fn_appid f) (fn_name f) (fn_source f) (fn_version f)
    (Some a) (fn_deleted f).

(** Modelled from the spec: the registry's [compile], which "delegates to
    Artifact Compiler, then atomically sets Function.currentArtifact =
    new artifact and enqueues an Instance Orchestrator reconciliation
    request"; on a compiler failure the function is left as it was. *)
Definition compile (func : Function) (dto : CompileFunctionDto.t)
    (st : Store) : CompileResult * Store :=
  match artifactCompile func
          (default "" (CompileFunctionDto.code dto)) st with
  | (Compiled a, st1) =>
    (Compiled a,
     mkStore (alter (set_current a) (fn_id func) (functions st1))
       (bundles st1) (artifacts st1)
       (reconcileQueue st1 ++ [fn_appid func]))
  | (CompileFailed e, st1) => (CompileFailed e, st1)
  end.

(** Modelled from the spec: the two services as the controller calls
    them, every call acting on the store in one step. *)
Definition services : @Services Store :=
  fun X call =>
    match call in ServiceCall X return Store -> Settled X * Store with
    | FindOne appid name => fun st => (Fulfilled (findOne appid name st), st)
    | FindAll appid => fun st => (Fulfilled (findAll appid st), st)
    | Count appid => fun st => (Fulfilled (count appid st), st)
    | Create appid _ dto => fun st =>
        let '(r, st') := create appid dto st in (Fulfilled r, st')
    | Update func dto => fun st =>
        let '(r, st') := update func dto st in (Fulfilled r, st')
    | Remove func => fun st =>
        let '(r, st') := remove func st in (Fulfilled r, st')
    | Compile func dto => fun st =>
        let '(r, st') := compile func dto st in (Fulfilled r, st')
    | FindApplicationBundle appid => fun st =>
        (Fulfilled (findApplicationBundle appid st), st)
    end.

(** The limit the controller derives from the stored bundle:
    [bundle?.resource?.limitCountOfCloudFunction || 0]. *)
Definition limit (appid : string) (st : Store) : Z :=
  js_or (bundle_limit (findApplicationBundle appid st)) 0.

(** The store after one service call, and after a sequence of them. *)
Definition perform (e : Event) (st : Store) : Store :=
  match e with
  | Called call => (services _ call st).2
  end.

Definition after (calls : list Event) (st : Store) : Store :=
  foldl (fun st e => perform e st) st calls.

(** Every stored function sits under its own [(applicationId, name)]. *)
Definition keyed (st : Store) : Prop :=
  map_Forall (fun k f => fn_id f = k) (functions st).

End Registry.
End Registry.

(** ** Sample data for the worked examples *)

Module Sample.

(** A DTO check that accepts every request. *)
Definition accept : CreateFunctionDto.t -> option string := fun _ => None.

(** A backend that rejects exactly the source text ["syntax error"]. *)
Definition backend : ArtifactBackend := {|
  diagnose s :=
    if decide (s = "syntax error")
    then Some (mkCompileError "syntax" ["unexpected token"])
    else None;
  transpile s := s;
  digest s := N.of_nat (String.length s)
|}.

Definition services : @Services Store := @Registry.services backend.

Definition bundleOf (l : Z) : Bundle :=
  mkBundle (Some (mkBundleResource (Some l))).

Definition dto (name : string) : CreateFunctionDto.t :=
  CreateFunctionDto.mk name "export default () => 1".

Definition req : IRequest.t := IRequest.mk (IRequest.mkUser "u1").

Definition fn (name : string) : Function :=
  mkFunction "A" name "export default () => 1" 0 None false.

(** Application ["A"] with a limit of two functions and none yet. *)
Definition empty : Store := mkStore ∅ {["A" := bundleOf 2]} [] [].

(** The same application with [f1], with [f1] and [f2], and with three
    functions. *)
Definition one : Store :=
  with_functions (<[("A", "f1") := fn "f1"]> ∅) empty.
Definition two : Store :=
  with_functions (<[("A", "f2") := fn "f2"]> (functions one)) empty.
Definition three : Store :=
  with_functions (<[("A", "f3") := fn "f3"]> (functions two)) empty.

(** An application without any resource bundle. *)
Definition unbundled : Store := mkStore ∅ ∅ [] [].

(** [f1] with a deployed artifact. *)
Definition deployed_artifact : Artifact :=
  mkArtifact ("A", "f1") 0 "export default () => 1" 22.
Definition deployed : Store :=
  with_functions
    (<[("A", "f1") :=
        mkFunction "A" "f1" "export default () => 1" 0
          (Some deployed_artifact) false]> ∅) empty.

End Sample.

(** ** Messages of the handlers *)

Module Messages.
Definition nameExist (name : string) : Message :=
  i18n.t "function.create.nameExist" [("name", ArgString name)].
Definition maxCount (limit : Z) : Message :=
  i18n.t "function.create.maxCount" [("count", ArgNumber limit)].
Definition createError : Message := i18n.t "function.create.error" [].
Definition codeRequired : Message :=
  i18n.t "function.compile.codeRequired" [].
End Messages.

(** ** Statements about admission *)

Module Admission.

(** The calls of a [create] that gets as far as the quota check. *)
Definition checks (appid : string) (dto : CreateFunctionDto.t) : list Event :=
  [Called (FindOne appid (CreateFunctionDto.name dto));
   Called (FindApplicationBundle appid); Called (Count appid)].

(** The [create] handlers of a batch of requests. *)
Definition creates (validate : CreateFunctionDto.t -> option string)
    (requests : list (string * CreateFunctionDto.t * IRequest.t)) :
    list (Async (ResponseUtil.t Function)) :=
  (fun r => FunctionController.create validate r.1.1 r.1.2 r.2) <$> requests.

(** The count of an application is within the limit of its bundle. *)
Definition within_limit (appid : string) (st : Store) : Prop :=
  Registry.count appid st <= Registry.limit appid st.

(** Check and write form one transaction: however the turns of
    concurrent [create] handlers are scheduled, a count within the limit
    stays within the limit. *)
Definition no_over_admission : Prop :=
  forall (backend : ArtifactBackend) validate requests schedule st appid,
    within_limit appid st ->
    within_limit appid
      (interleave Registry.services schedule (creates validate requests) st).2.

(** [create] was denied for quota: it answered with the max-count error. *)
Definition denied_for_quota (o : Outcome (ResponseUtil.t Function)) : Prop :=
  exists args,
    o = Returned (ResponseUtil.error
                    (Translated "function.create.maxCount" args)).

(** Every quota denial carries [quantity]: the caller can read it off
    the answer. *)
Definition denial_carries (quantity : string -> Store -> Z) : Prop :=
  exists read : Outcome (ResponseUtil.t Function) -> Z,
    forall (backend : ArtifactBackend) validate appid dto req st,
      let o :=
        (run Registry.services
           (FunctionController.create validate appid dto req) st).1.1 in
      denied_for_quota o -> read o = quantity appid st.

End Admission.

(** ** Services whose writes come back empty *)

Module Outage.

(** Services for the examples of failed writes: reads are those of the
    sample registry; [create], [update] and [remove] resolve to [null]
    and store nothing. *)
Definition services : @Services Store :=
  fun X call =>
    match call in ServiceCall X return Store -> Settled X * Store with
    | Create _ _ _ => fun st => (Fulfilled None, st)
    | Update _ _ => fun st => (Fulfilled None, st)
    | Remove _ => fun st => (Fulfilled None, st)
    | call => Sample.services _ call
    end.

End Outage.

(** ** Statements about the calls of a handler *)

Module Calls.

(** Services whose promises are always fulfilled. *)
Definition never_rejects {Σ : Type} (svc : @Services Σ) : Prop :=
  forall (X : Type) (call : ServiceCall X) (s : Σ),
    exists v s', svc X call s = (Fulfilled v, s').

(** The number of write calls in a trace. *)
Definition writes (tr : list Event) : nat :=
  length (List.filter is_write tr).

(** All the calls a [create] can make, in the order of the source. *)
Definition of_create (appid : string) (dto : CreateFunctionDto.t)
    (req : IRequest.t) : list Event :=
  [Called (FindOne appid (CreateFunctionDto.name dto));
   Called (FindApplicationBundle appid); Called (Count appid);
   Called (Create appid (IRequest.id (IRequest.user req)) dto)].

End Calls.

(** * Properties of the controller, for any services *)

Section AnyServices.

Context {Σ : Type} (svc : @Services Σ).
Variable validate : CreateFunctionDto.t -> option string.

Local Abbreviation create := (FunctionController.create validate).

Lemma create_invalid appid dto req s error :
  truthy_string (validate dto) = Some error ->
  run svc (create appid dto req) s
  = (Returned (ResponseUtil.error (Text error)), s, []).
Proof.
  intros Hv. unfold FunctionController.create. rewrite Hv. reflexivity.
Qed.

(** A check that yields nothing, or the empty text, lets the request
    through: the handler is then the one of a check that accepts. *)
Lemma create_passed appid dto req :
  truthy_string (validate dto) = None ->
  create appid dto req
  = FunctionController.create (fun _ => None) appid dto req.
Proof. intros Hv. unfold FunctionController.create. now rewrite Hv. Qed.

Lemma create_name_taken appid dto req s f s1 :
  validate dto = None ->
  svc _ (FindOne appid (CreateFunctionDto.name dto)) s
  = (Fulfilled (Some f), s1) ->
  run svc (create appid dto req) s
  = (Returned (ResponseUtil.error
                 (Messages.nameExist (CreateFunctionDto.name dto))),
     s1, [Called (FindOne appid (CreateFunctionDto.name dto))]).
Proof.
  intros Hv Hf. unfold FunctionController.create. rewrite Hv.
  cbn [truthy_string].
  cbn [run]. rewrite Hf. reflexivity.
Qed.

Lemma create_over_limit appid dto req s s1 bundle s2 count s3 :
  validate dto = None ->
  svc _ (FindOne appid (CreateFunctionDto.name dto)) s
  = (Fulfilled None, s1) ->
  svc _ (FindApplicationBundle appid) s1 = (Fulfilled bundle, s2) ->
  svc _ (Count appid) s2 = (Fulfilled count, s3) ->
  js_or (bundle_limit bundle) 0 <= count ->
  run svc (create appid dto req) s
  = (Returned (ResponseUtil.error
                 (Messages.maxCount (js_or (bundle_limit bundle) 0))),
     s3,
     [Called (FindOne appid (CreateFunctionDto.name dto));
      Called (FindApplicationBundle appid); Called (Count appid)]).
Proof.
  intros Hv Hf Hb Hc Hle. unfold FunctionController.create. rewrite Hv.
  cbn [truthy_string].
  cbn [run]. rewrite Hf. cbn [run]. rewrite Hb. cbn [run]. rewrite Hc.
  destruct (Z.geb_spec count (js_or (bundle_limit bundle) 0)); [|lia].
  reflexivity.
Qed.

Lemma create_within_limit appid dto req s s1 bundle s2 count s3 res s4 :
  validate dto = None ->
  svc _ (FindOne appid (CreateFunctionDto.name dto)) s
  = (Fulfilled None, s1) ->
  svc _ (FindApplicationBundle appid) s1 = (Fulfilled bundle, s2) ->
  svc _ (Count appid) s2 = (Fulfilled count, s3) ->
  count < js_or (bundle_limit bundle) 0 ->
  svc _ (Create appid (IRequest.id (IRequest.user req)) dto) s3
  = (Fulfilled res, s4) ->
  run svc (create appid dto req) s
  = (Returned (match res with
               | Some f => ResponseUtil.ok f
               | None => ResponseUtil.error Messages.createError
               end),
     s4,
     [Called (FindOne appid (CreateFunctionDto.name dto));
      Called (FindApplicationBundle appid); Called (Count appid);
      Called (Create appid (IRequest.id (IRequest.user req)) dto)]).
Proof.
  intros Hv Hf Hb Hc Hlt Hcr. unfold FunctionController.create. rewrite Hv.
  cbn [truthy_string].
  cbn [run]. rewrite Hf. cbn [run]. rewrite Hb. cbn [run]. rewrite Hc.
  destruct (Z.geb_spec count (js_or (bundle_limit bundle) 0)); [lia|].
  cbn [run]. rewrite Hcr. destruct res; reflexivity.
Qed.

End AnyServices.

(** ** Duplicate names (C2) *)

(** C2.  For a request that passes the DTO's own check: when the lookup
    finds a function named [(appid, name)], [create] answers with the
    name-exists error after that single lookup, so neither the bundle
    lookup nor the count nor the write is reached and the state is the
    one the lookup left; a run that does reach the quota check or a write
    is one whose lookup found the name free; and when the name is free
    and the count is below the limit, the function the service persisted
    is returned. *)
Theorem create_duplicate_name
    {Σ : Type} (svc : @Services Σ)
    (validate : CreateFunctionDto.t -> option string)
    (appid : string) (dto : CreateFunctionDto.t) (req : IRequest.t) (s : Σ) :
  validate dto = None ->
  let name := CreateFunctionDto.name dto in
  let handler := FunctionController.create validate appid dto req in
  (forall f s1,
     svc _ (FindOne appid name) s = (Fulfilled (Some f), s1) ->
     run svc handler s
     = (Returned (ResponseUtil.error (Messages.nameExist name)), s1,
        [Called (FindOne appid name)]))
  /\ (forall e,
        In e (run svc handler s).2 ->
        is_quota_check e || is_write e = true ->
        exists s1, svc _ (FindOne appid name) s = (Fulfilled None, s1))
  /\ (forall s1 bundle s2 count s3 f s4,
        svc _ (FindOne appid name) s = (Fulfilled None, s1) ->
        svc _ (FindApplicationBundle appid) s1 = (Fulfilled bundle, s2) ->
        svc _ (Count appid) s2 = (Fulfilled count, s3) ->
        count < js_or (bundle_limit bundle) 0 ->
        svc _ (Create appid (IRequest.id (IRequest.user req)) dto) s3
        = (Fulfilled (Some f), s4) ->
        run svc handler s
        = (Returned (ResponseUtil.ok f), s4,
           [Called (FindOne appid name);
            Called (FindApplicationBundle appid); Called (Count appid);
            Called (Create appid (IRequest.id (IRequest.user req)) dto)])).
Proof.
  intros Hv name handler. split; [|split].
  - intros f s1 Hf.
    exact (create_name_taken svc validate appid dto req s f s1 Hv Hf).
  - intros e Hin He.
    destruct (svc _ (FindOne appid name) s) as [[[f|]|ex] s1] eqn:Hf.
    + subst handler.
      rewrite (create_name_taken svc validate _ _ _ _ f s1 Hv Hf) in Hin.
      destruct Hin as [<-|[]]. discriminate He.
    + now exists s1.
    + subst handler. unfold FunctionController.create in Hin.
      rewrite Hv in Hin. cbn [run truthy_string] in Hin. fold name in Hin.
      rewrite Hf in Hin. destruct Hin as [<-|[]]. discriminate He.
  - intros s1 bundle s2 count s3 f s4 Hf Hb Hc Hlt Hcr.
    exact (create_within_limit svc validate _ _ _ _ _ _ _ _ _ _ _
             Hv Hf Hb Hc Hlt Hcr).
Qed.

Lemma create_duplicate_name_witness :
  run Sample.services
    (FunctionController.create Sample.accept "A" (Sample.dto "f1") Sample.req)
    Sample.one
  = (Returned (ResponseUtil.error (Messages.nameExist "f1")), Sample.one,
     [Called (FindOne "A" "f1")])
  /\ run Sample.services
       (FunctionController.create Sample.accept "A" (Sample.dto "f2")
          Sample.req)
       Sample.one
     = (Returned (ResponseUtil.ok (Sample.fn "f2")), Sample.two,
        [Called (FindOne "A" "f2"); Called (FindApplicationBundle "A");
         Called (Count "A"); Called (Create "A" "u1" (Sample.dto "f2"))]).
Proof.
  destruct (create_duplicate_name Sample.services Sample.accept "A"
              (Sample.dto "f1") Sample.req Sample.one eq_refl)
    as (Htaken & _ & _).
  destruct (create_duplicate_name Sample.services Sample.accept "A"
              (Sample.dto "f2") Sample.req Sample.one eq_refl)
    as (_ & _ & Hfree).
  split.
  - apply (Htaken (Sample.fn "f1")). reflexivity.
  - apply (Hfree Sample.one (Some (Sample.bundleOf 2)) Sample.one 1
             Sample.one).
    + reflexivity.
    + reflexivity.
    + reflexivity.
    + reflexivity.
    + reflexivity.
Defined.

(** ** Compile: the code check comes first (C10) *)

(** C10.  [compile] tests the code body before it looks the function up:
    when [dto.code] is absent or empty the answer is the code-required
    error, with no service call made at all, whatever the services would
    have said about [(appid, name)]; in particular it is never the
    not-found exception. *)
Theorem compile_code_required_first
    {Σ : Type} (svc : @Services Σ) (appid name : string)
    (dto : CompileFunctionDto.t) (s : Σ) :
  CompileFunctionDto.code dto = None \/ CompileFunctionDto.code dto = Some "" ->
  run svc (FunctionController.compile appid name dto) s
  = (Returned (ResponseUtil.error Messages.codeRequired), s, [])
  /\ (run svc (FunctionController.compile appid name dto) s).1.1
     <> Raised (FunctionController.notFound name).
Proof.
  intros Hcode. unfold FunctionController.compile.
  destruct Hcode as [-> | ->]; cbn; split; (reflexivity || discriminate).
Qed.

(** No function at all is stored, the code is absent: code-required. *)
Lemma compile_code_required_first_witness :
  Registry.findOne "A" "ghost" Sample.unbundled = None
  /\ run Sample.services
       (FunctionController.compile "A" "ghost" (CompileFunctionDto.mk None))
       Sample.unbundled
     = (Returned (ResponseUtil.error Messages.codeRequired),
        Sample.unbundled, []).
Proof.
  split; [reflexivity|].
  apply (compile_code_required_first Sample.services "A" "ghost"
           (CompileFunctionDto.mk None) Sample.unbundled).
  left. reflexivity.
Defined.

(** With a code body the lookup does happen, and a missing function is
    reported as not found. *)
Lemma compile_not_found
    {Σ : Type} (svc : @Services Σ) (appid name : string)
    (dto : CompileFunctionDto.t) (s s1 : Σ) :
  falsy_string (CompileFunctionDto.code dto) = false ->
  svc _ (FindOne appid name) s = (Fulfilled None, s1) ->
  run svc (FunctionController.compile appid name dto) s
  = (Raised (FunctionController.notFound name), s1,
     [Called (FindOne appid name)]).
Proof.
  intros Hc Hf. unfold FunctionController.compile. rewrite Hc.
  cbn [run]. rewrite Hf. reflexivity.
Qed.

(** ** Compile: the service result is always wrapped in [ok] (C3) *)


(** Only a compile service that rejects makes the handler fail: the
    exception passes through uncaught. *)
Lemma compile_rejection_propagates
    {Σ : Type} (svc : @Services Σ) (appid name : string)
    (dto : CompileFunctionDto.t) (s s1 s2 : Σ) (func : Function)
    (e : Exception) :
  falsy_string (CompileFunctionDto.code dto) = false ->
  svc _ (FindOne appid name) s = (Fulfilled (Some func), s1) ->
  svc _ (Compile func dto) s1 = (Rejected e, s2) ->
  run svc (FunctionController.compile appid name dto) s
  = (Raised e, s2, [Called (FindOne appid name); Called (Compile func dto)]).
Proof.
  intros Hc Hf Hr. unfold FunctionController.compile. rewrite Hc.
  cbn [run]. rewrite Hf. cbn [run]. rewrite Hr. reflexivity.
Qed.

(** The sibling handlers do report a service call that came back empty. *)
Lemma remove_reports_failure
    {Σ : Type} (svc : @Services Σ) (appid name : string)
    (s s1 s2 : Σ) (func : Function) :
  svc _ (FindOne appid name) s = (Fulfilled (Some func), s1) ->
  svc _ (Remove func) s1 = (Fulfilled None, s2) ->
  run svc (FunctionController.remove appid name) s
  = (Returned (ResponseUtil.error (i18n.t "function.delete.error" [])), s2,
     [Called (FindOne appid name); Called (Remove func)]).
Proof.
  intros Hf Hr. unfold FunctionController.remove.
  cbn [run]. rewrite Hf. cbn [run]. rewrite Hr. reflexivity.
Qed.

Lemma update_reports_failure
    {Σ : Type} (svc : @Services Σ) (appid name : string)
    (dto : UpdateFunctionDto.t) (s s1 s2 : Σ) (func : Function) :
  svc _ (FindOne appid name) s = (Fulfilled (Some func), s1) ->
  svc _ (Update func dto) s1 = (Fulfilled None, s2) ->
  run svc (FunctionController.update appid name dto) s
  = (Returned (ResponseUtil.error (i18n.t "function.update.error" [])), s2,
     [Called (FindOne appid name); Called (Update func dto)]).
Proof.
  intros Hf Hr. unfold FunctionController.update.
  cbn [run]. rewrite Hf. cbn [run]. rewrite Hr. reflexivity.
Qed.



(** * The store behind the services *)

Section StoreFacts.

Context `{backend : ArtifactBackend}.

Lemma findOne_Some appid name st f :
  Registry.findOne appid name st = Some f <->
  functions st !! (appid, name) = Some f /\ fn_deleted f = false.
Proof.
  unfold Registry.findOne.
  destruct (functions st !! (appid, name)) as [g|]; cbn.
  - destruct (fn_deleted g) eqn:Hd; split.
    + discriminate.
    + intros [[= ->] ?]. congruence.
    + intros [= ->]. done.
    + intros [[= ->] _]. done.
  - split; [discriminate | intros [? _]; discriminate].
Qed.

Lemma findOne_None appid name st :
  Registry.findOne appid name st = None <->
  forall f, functions st !! (appid, name) = Some f -> fn_deleted f = true.
Proof.
  unfold Registry.findOne.
  destruct (functions st !! (appid, name)) as [g|]; cbn.
  - destruct (fn_deleted g) eqn:Hd; split.
    + intros _ f [= <-]. done.
    + done.
    + discriminate.
    + intros H. specialize (H g eq_refl). congruence.
  - split; [intros _ f; discriminate | done].
Qed.


(** A name that is not found is not among the counted functions. *)
Lemma not_found_not_counted a appid name st :
  Registry.findOne appid name st = None ->
  filter (Registry.active_in a) (functions st) !! (appid, name) = None.
Proof.
  intros Hnone. apply map_lookup_filter_None_2.
  destruct (functions st !! (appid, name)) as [g|] eqn:Hg; [right|by left].
  intros x [= <-] [_ Hd]. cbn in Hd.
  rewrite findOne_None in Hnone. specialize (Hnone g Hg). congruence.
Qed.


(** Persisting a function under a free name adds one to the count of its
    application and leaves the other counts alone. *)
Lemma count_create a appid dto st :
  Registry.findOne appid (CreateFunctionDto.name dto) st = None ->
  Registry.count a (Registry.create appid dto st).2
  = Registry.count a st + (if decide (a = appid) then 1 else 0).
Proof.
  intros Hfree. unfold Registry.count, Registry.create. cbn.
  pose proof (not_found_not_counted a _ _ _ Hfree) as Hnot.
  case_decide as Ha.
  - subst a. rewrite map_filter_insert_True by (split; done).
    rewrite map_size_insert_None by done. lia.
  - rewrite map_filter_insert_False by (intros [? _]; cbn in *; congruence).
    rewrite map_filter_delete, delete_id by done. lia.
Qed.

Lemma limit_create a appid dto st :
  Registry.limit a (Registry.create appid dto st).2 = Registry.limit a st.
Proof. reflexivity. Qed.

Lemma findOne_create appid dto st :
  Registry.findOne appid (CreateFunctionDto.name dto)
    (Registry.create appid dto st).2
  = (Registry.create appid dto st).1.
Proof.
  unfold Registry.findOne, Registry.create. cbn.
  rewrite lookup_insert_eq. reflexivity.
Qed.

(** A soft-deleted function is not found any more. *)
Lemma findOne_remove func st g st' :
  Registry.remove func st = (Some g, st') ->
  Registry.findOne (fn_appid func) (fn_name func) st' = None.
Proof.
  unfold Registry.remove.
  destruct (Registry.findOne (fn_appid func) (fn_name func) st) as [h|];
    [|discriminate].
  intros [= <- <-]. unfold Registry.findOne, fn_id. cbn.
  rewrite lookup_insert_eq. reflexivity.
Qed.

Lemma remove_not_found func st :
  Registry.findOne (fn_appid func) (fn_name func) st = None ->
  Registry.remove func st = (None, st).
Proof. unfold Registry.remove. now intros ->. Qed.

End StoreFacts.

(** * The controller over the store *)

Section OverStore.

Context `{backend : ArtifactBackend}.
Variable validate : CreateFunctionDto.t -> option string.

Local Abbreviation create := (FunctionController.create validate).

(** What [create] does on the store, guard by guard. *)
Lemma run_create appid dto req st :
  run Registry.services (create appid dto req) st
  = match truthy_string (validate dto) with
    | Some error => (Returned (ResponseUtil.error (Text error)), st, [])
    | None =>
      match Registry.findOne appid (CreateFunctionDto.name dto) st with
      | Some _ =>
        (Returned (ResponseUtil.error
                     (Messages.nameExist (CreateFunctionDto.name dto))),
         st, [Called (FindOne appid (CreateFunctionDto.name dto))])
      | None =>
        if Registry.count appid st >=? Registry.limit appid st then
          (Returned (ResponseUtil.error
                       (Messages.maxCount (Registry.limit appid st))),
           st, Admission.checks appid dto)
        else
          (Returned (ResponseUtil.ok (Registry.fresh appid dto)),
           (Registry.create appid dto st).2,
           (Admission.checks appid dto
            ++ [Called (Create appid (IRequest.id (IRequest.user req)) dto)]
           )%list)
      end
    end.
Proof.
  destruct (truthy_string (validate dto)) as [error|] eqn:Hv.
  - now apply create_invalid.
  - rewrite (create_passed validate appid dto req Hv).
    destruct (Registry.findOne appid (CreateFunctionDto.name dto) st)
      as [f|] eqn:Hf.
    + apply create_name_taken with (f := f); [done|]. cbn. now rewrite Hf.
    + destruct (Z.geb_spec (Registry.count appid st) (Registry.limit appid st)).
      * apply create_over_limit
          with (s1 := st) (s2 := st)
               (bundle := Registry.findApplicationBundle appid st)
               (count := Registry.count appid st); try done.
        cbn. now rewrite Hf.
      * apply (create_within_limit Registry.services (fun _ => None)
                 appid dto req
                 st st (Registry.findApplicationBundle appid st) st
                 (Registry.count appid st) st
                 (Some (Registry.fresh appid dto))); try done.
        cbn. now rewrite Hf.
Qed.


(** One [create], run on its own, keeps every application within its
    limit. *)
Lemma create_within_limit_kept a appid dto req st :
  Admission.within_limit a st ->
  Admission.within_limit a
    (run Registry.services (create appid dto req) st).1.2.
Proof.
  unfold Admission.within_limit. intros Hin. rewrite run_create.
  destruct (truthy_string (validate dto)); [done|].
  destruct (Registry.findOne _ _ st) eqn:Hfree; [done|].
  destruct (Z.geb_spec (Registry.count appid st) (Registry.limit appid st));
    [done|].
  cbn [fst snd]. rewrite count_create by done.
  rewrite limit_create. case_decide; [subst a|]; lia.
Qed.

End OverStore.

(** ** The function-count limit (C1) *)


Lemma findOne_create_other appid dto name a st :
  (a, name) <> (appid, CreateFunctionDto.name dto) ->
  Registry.findOne a name (Registry.create appid dto st).2
  = Registry.findOne a name st.
Proof.
  intros Hne. unfold Registry.findOne, Registry.create. cbn.
  now rewrite lookup_insert_ne.
Qed.





(** ** No bundle, no limit, or a limit of zero (C9) *)



(** ** What a quota denial tells the caller (C6) *)

(** C6 as stated fails: two states of an application with the same limit
    but two and three functions are answered identically, so the current
    count cannot be read off the denial. *)
Lemma quota_denial_lacks_current_count :
  ~ (Admission.denial_carries Registry.limit
     /\ Admission.denial_carries Registry.count).
Proof.
  intros [_ [read Hread]].
  pose proof (Hread Sample.backend Sample.accept "A" (Sample.dto "g")
                Sample.req Sample.two) as H2.
  pose proof (Hread Sample.backend Sample.accept "A" (Sample.dto "g")
                Sample.req Sample.three) as H3.
  cbv zeta in H2, H3.
  assert (Hsame :
    (run (@Registry.services Sample.backend)
       (FunctionController.create Sample.accept "A" (Sample.dto "g")
          Sample.req) Sample.two).1.1
    = (run (@Registry.services Sample.backend)
         (FunctionController.create Sample.accept "A" (Sample.dto "g")
            Sample.req) Sample.three).1.1) by reflexivity.
  rewrite Hsame in H2.
  assert (Hd : Admission.denied_for_quota
    (run (@Registry.services Sample.backend)
       (FunctionController.create Sample.accept "A" (Sample.dto "g")
          Sample.req) Sample.three).1.1)
    by (exists [("count", ArgNumber 2)]; reflexivity).
  pose proof (eq_trans (eq_sym (H2 Hd)) (H3 Hd)) as Hcounts.
  vm_compute in Hcounts. discriminate Hcounts.
Qed.

(** C6, amended.  A quota denial carries the limit the controller worked
    with, and nothing else: its message has the single argument [count],
    holding that limit.  The current function count is not part of the
    answer. *)
Theorem quota_denial_carries_limit :
  Admission.denial_carries Registry.limit
  /\ forall (backend : ArtifactBackend) validate appid dto req st args,
       (run Registry.services
          (FunctionController.create validate appid dto req) st).1.1
       = Returned (ResponseUtil.error
                     (Translated "function.create.maxCount" args)) ->
       args = [("count", ArgNumber (Registry.limit appid st))]
       /\ Registry.limit appid st <= Registry.count appid st.
Proof.
  assert (Hshape :
    forall (backend : ArtifactBackend) validate appid dto req st args,
      (run Registry.services
         (FunctionController.create validate appid dto req) st).1.1
      = Returned (ResponseUtil.error
                    (Translated "function.create.maxCount" args)) ->
      args = [("count", ArgNumber (Registry.limit appid st))]
      /\ Registry.limit appid st <= Registry.count appid st).
  { intros backend validate appid dto req st args. rewrite run_create.
    destruct (truthy_string (validate dto)); [discriminate|].
    destruct (Registry.findOne _ _ st); [discriminate|].
    destruct (Z.geb_spec (Registry.count appid st) (Registry.limit appid st));
      [|discriminate].
    cbn. intros [= <-]. split; [reflexivity | lia]. }
  split; [|exact Hshape].
  exists (fun o =>
    match o with
    | Returned (ResponseUtil.error (Translated _ [(_, ArgNumber n)])) => n
    | _ => 0
    end).
  intros backend validate appid dto req st o [args Hden]. subst o.
  rewrite Hden.
  destruct (Hshape backend validate appid dto req st args Hden) as [-> _].
  reflexivity.
Qed.

Lemma quota_denial_carries_limit_witness :
  [("count", ArgNumber 2)]
  = [("count", ArgNumber (Registry.limit "A" Sample.two))]
  /\ Registry.limit "A" Sample.two <= Registry.count "A" Sample.two.
Proof.
  destruct quota_denial_carries_limit as [_ Hshape].
  exact (Hshape Sample.backend Sample.accept "A" (Sample.dto "f3")
           Sample.req Sample.two [("count", ArgNumber 2)] eq_refl).
Defined.

(** ** Check and write under concurrent requests (C5) *)

(** Running a handler on its own is taking its turns one after another. *)
Lemma turns_run {Σ R : Type} (svc : @Services Σ) (p : Async R) (s : Σ) :
  exists p',
    turns svc (length (run svc p s).2) p s = (p', (run svc p s).1.2)
    /\ finished p' = Some (run svc p s).1.1.
Proof.
  revert s. induction p as [r | e | X c k IH]; intros s.
  - exists (Return r). split; reflexivity.
  - exists (Throw e). split; reflexivity.
  - cbn [run]. destruct (svc X c s) as [[v | ex] s1] eqn:Hc.
    + destruct (IH v s1) as (p' & Hturns & Hfin).
      destruct (run svc (k v) s1) as [[o s2] tr] eqn:Hrun.
      exists p'. cbn [length turns turn fst snd] in *.
      rewrite Hc. split; assumption.
    + exists (Throw ex). cbn [length turns turn fst snd].
      rewrite Hc. split; reflexivity.
Qed.

(** C5 as stated fails: the application holds [f1] under a limit of two;
    the requests for [f2] and [f3] take their turns alternately, both
    pass the count check before either writes, and three functions are
    stored. *)
Lemma concurrent_creates_exceed_limit : ~ Admission.no_over_admission.
Proof.
  intros Hno.
  assert (Hin : Admission.within_limit "A" Sample.one)
    by (vm_compute; discriminate).
  pose proof (Hno Sample.backend Sample.accept
                [("A", Sample.dto "f2", Sample.req);
                 ("A", Sample.dto "f3", Sample.req)]
                [0; 1; 0; 1; 0; 1; 0; 1]%nat Sample.one "A" Hin) as Hout.
  vm_compute in Hout. apply Hout. reflexivity.
Qed.

(** The same run, spelled out: both requests are answered [ok] and the
    store ends up holding [f1], [f2] and [f3]. *)
Lemma interleaved_creates_both_succeed :
  interleave Sample.services [0; 1; 0; 1; 0; 1; 0; 1]%nat
    (Admission.creates Sample.accept
       [("A", Sample.dto "f2", Sample.req);
        ("A", Sample.dto "f3", Sample.req)])
    Sample.one
  = ([Return (ResponseUtil.ok (Sample.fn "f2"));
      Return (ResponseUtil.ok (Sample.fn "f3"))], Sample.three)
  /\ Registry.count "A" Sample.three = 3
  /\ Registry.limit "A" Sample.three = 2.
Proof. repeat split. Qed.

Lemma serial_cons {Σ R : Type} (svc : @Services Σ) (p : Async R)
    (ps : list (Async R)) (s : Σ) :
  (serial svc (p :: ps) s).2 = (serial svc ps (run svc p s).1.2).2.
Proof.
  cbn [serial]. destruct (run svc p s) as [[o s1] tr]. cbn [fst snd].
  destruct (serial svc ps s1) as [os s2]. reflexivity.
Qed.

(** C5, amended.  The count check and the write of [create] are separate
    awaited calls and not one transaction.  When the [create] requests
    are handled one after another, each to completion, a count within
    the limit stays within the limit. *)
Theorem serial_creates_within_limit
    `{backend : ArtifactBackend}
    (validate : CreateFunctionDto.t -> option string)
    (requests : list (string * CreateFunctionDto.t * IRequest.t))
    (st : Store) (appid : string) :
  Admission.within_limit appid st ->
  Admission.within_limit appid
    (serial Registry.services (Admission.creates validate requests) st).2.
Proof.
  revert st. induction requests as [|[[a dto] req] rest IH]; intros st Hin.
  - exact Hin.
  - unfold Admission.creates. rewrite fmap_cons, serial_cons.
    apply IH. cbn [fst snd].
    now apply create_within_limit_kept.
Qed.

(** The two requests of the interleaved run, handled one after another:
    the second is denied and two functions are stored. *)
Lemma serial_creates_within_limit_witness :
  Admission.within_limit "A"
    (serial Sample.services
       (Admission.creates Sample.accept
          [("A", Sample.dto "f2", Sample.req);
           ("A", Sample.dto "f3", Sample.req)])
       Sample.one).2.
Proof.
  apply (serial_creates_within_limit (backend := Sample.backend)
           Sample.accept
           [("A", Sample.dto "f2", Sample.req);
            ("A", Sample.dto "f3", Sample.req)] Sample.one "A").
  vm_compute. discriminate.
Defined.

(** ** Deleting twice (C7) *)

Section Deletion.

Context `{backend : ArtifactBackend}.

(** The state a service call leaves, by call. *)
Lemma services_state {X : Type} (call : ServiceCall X) (st : Store) :
  (Registry.services X call st).2
  = match call with
    | Create appid _ dto => (Registry.create appid dto st).2
    | Update func dto => (Registry.update func dto st).2
    | Remove func => (Registry.remove func st).2
    | Compile func dto => (Registry.compile func dto st).2
    | _ => st
    end.
Proof.
  destruct call; cbn [Registry.services]; try reflexivity.
  - now destruct (Registry.update func dto st).
  - now destruct (Registry.remove func st).
  - now destruct (Registry.compile func dto st).
Qed.

(** Every service call keeps the functions under their own keys. *)
Lemma services_keyed {X : Type} (call : ServiceCall X) (st : Store) :
  Registry.keyed st -> Registry.keyed (Registry.services X call st).2.
Proof.
  intros Hk. rewrite services_state. destruct call; try exact Hk.
  - (* create *)
    intros k f. cbn. rewrite lookup_insert_Some.
    intros [[<- <-] | [_ Hold]]; [reflexivity | now apply Hk].
  - (* update *)
    unfold Registry.update.
    destruct (Registry.findOne _ _ st) as [g|] eqn:Hg; [|exact Hk].
    apply findOne_Some in Hg as [Hg _]. apply Hk in Hg.
    intros k f. cbn. rewrite lookup_insert_Some.
    intros [[<- <-] | [_ Hold]]; [exact Hg | now apply Hk].
  - (* remove *)
    unfold Registry.remove.
    destruct (Registry.findOne _ _ st) as [g|] eqn:Hg; [|exact Hk].
    apply findOne_Some in Hg as [Hg _]. apply Hk in Hg.
    intros k f. cbn. rewrite lookup_insert_Some.
    intros [[<- <-] | [_ Hold]]; [exact Hg | now apply Hk].
  - (* compile *)
    unfold Registry.compile, Registry.artifactCompile.
    destruct (diagnose _); [exact Hk|].
    intros k f. cbn. rewrite lookup_alter_Some.
    intros [(_ & g & Hg & ->) | [_ Hold]]; [|now apply Hk].
    apply Hk in Hg. exact Hg.
Qed.

(** A name that is not found stays not found under every call other
    than a [create] of that very name. *)
Lemma not_found_kept {X : Type} (call : ServiceCall X) appid name st :
  Registry.keyed st ->
  creates_name appid name (Called call) = false ->
  Registry.findOne appid name st = None ->
  Registry.findOne appid name (Registry.services X call st).2 = None.
Proof.
  intros Hk Hcall Hnone. rewrite services_state.
  destruct call; try exact Hnone.
  - (* create *)
    cbn in Hcall. apply bool_decide_eq_false in Hcall.
    rewrite findOne_create_other by congruence. exact Hnone.
  - (* update *)
    unfold Registry.update.
    destruct (Registry.findOne (fn_appid func) (fn_name func) st)
      as [g|] eqn:Hg; [|exact Hnone].
    unfold Registry.findOne. cbn.
    destruct (decide (fn_id func = (appid, name))) as [Heq|Hne].
    + injection Heq as Ha Hn. rewrite Ha, Hn, Hnone in Hg. discriminate Hg.
    + rewrite lookup_insert_ne by exact Hne. exact Hnone.
  - (* remove *)
    unfold Registry.remove.
    destruct (Registry.findOne (fn_appid func) (fn_name func) st)
      as [g|] eqn:Hg; [|exact Hnone].
    unfold Registry.findOne. cbn.
    destruct (decide (fn_id func = (appid, name))) as [Heq|Hne].
    + rewrite Heq, lookup_insert_eq. reflexivity.
    + rewrite lookup_insert_ne by exact Hne. exact Hnone.
  - (* compile *)
    unfold Registry.compile, Registry.artifactCompile.
    destruct (diagnose _); [exact Hnone|].
    unfold Registry.findOne in *. cbn.
    destruct (decide (fn_id func = (appid, name))) as [Heq|Hne].
    + rewrite Heq, lookup_alter_eq.
      destruct (functions st !! (appid, name)) as [g|]; [|reflexivity].
      cbn in *. destruct (fn_deleted g); [reflexivity | discriminate].
    + rewrite lookup_alter_ne by exact Hne. exact Hnone.
Qed.

Lemma not_found_after calls appid name st :
  Registry.keyed st ->
  Forall (fun e => creates_name appid name e = false) calls ->
  Registry.findOne appid name st = None ->
  Registry.keyed (Registry.after calls st)
  /\ Registry.findOne appid name (Registry.after calls st) = None.
Proof.
  intros Hk Hcalls. revert st Hk.
  induction Hcalls as [|[X call] calls Hcall _ IH]; intros st Hk Hnone.
  - split; assumption.
  - cbn. apply IH.
    + now apply services_keyed.
    + now apply not_found_kept.
Qed.

(** What [remove] does on the store. *)
Lemma run_remove appid name st :
  run Registry.services (FunctionController.remove appid name) st
  = match Registry.findOne appid name st with
    | None =>
      (Raised (FunctionController.notFound name), st,
       [Called (FindOne appid name)])
    | Some func =>
      (Returned
         match (Registry.remove func st).1 with
         | Some f => ResponseUtil.ok f
         | None => ResponseUtil.error (i18n.t "function.delete.error" [])
         end,
       (Registry.remove func st).2,
       [Called (FindOne appid name); Called (Remove func)])
    end.
Proof.
  unfold FunctionController.remove. cbn.
  destruct (Registry.findOne appid name st) as [func|]; [|reflexivity].
  cbn. destruct (Registry.remove func st) as [[f|] st']; reflexivity.
Qed.

Lemma remove_missing appid name st :
  Registry.findOne appid name st = None ->
  run Registry.services (FunctionController.remove appid name) st
  = (Raised (FunctionController.notFound name), st,
     [Called (FindOne appid name)]).
Proof. intros Hnone. now rewrite run_remove, Hnone. Qed.

Lemma remove_existing appid name st :
  Registry.keyed st ->
  forall f,
    (run Registry.services (FunctionController.remove appid name) st).1.1
    = Returned (ResponseUtil.ok f) ->
    Registry.findOne appid name st = Some f
    /\ Registry.keyed
         (run Registry.services (FunctionController.remove appid name) st).1.2
    /\ Registry.findOne appid name
         (run Registry.services (FunctionController.remove appid name) st).1.2
       = None.
Proof.
  intros Hk f. rewrite run_remove.
  destruct (Registry.findOne appid name st) as [g|] eqn:Hg; [|discriminate].
  pose proof Hg as Hg'. apply findOne_Some in Hg' as [Hl _].
  apply Hk in Hl. injection Hl as Ha Hn.
  pose proof (services_keyed (Remove g) st Hk) as Hk'.
  rewrite services_state in Hk'.
  destruct (Registry.remove g st) as [[h|] st'] eqn:Hr; cbn; [|discriminate].
  intros [= <-]. pose proof (findOne_remove _ _ _ _ Hr) as Hgone.
  rewrite Ha, Hn in Hgone.
  unfold Registry.remove in Hr. rewrite Ha, Hn, Hg in Hr.
  injection Hr as -> <-. repeat split; assumption.
Qed.

End Deletion.

(** C7.  On a store that keeps every function under its own key:
    [remove] of a name that is not found throws the not-found exception
    after the lookup alone, with no removal attempted and the store left
    as it was; and once a [remove] has answered [ok], the function is not
    found, so that a second [remove], directly or after any service calls
    other than a [create] of that name, throws not-found again and
    deletes nothing. *)
Theorem remove_twice_not_found
    `{backend : ArtifactBackend} (appid name : string) (st : Store) :
  Registry.keyed st ->
  let handler := FunctionController.remove appid name in
  let missing (s : Store) :=
    run Registry.services handler s
    = (Raised (FunctionController.notFound name), s,
       [Called (FindOne appid name)]) in
  (Registry.findOne appid name st = None -> missing st)
  /\ (forall f,
        (run Registry.services handler st).1.1
        = Returned (ResponseUtil.ok f) ->
        let st' := (run Registry.services handler st).1.2 in
        Registry.findOne appid name st' = None
        /\ missing st'
        /\ forall calls,
             Forall (fun e => creates_name appid name e = false) calls ->
             missing (Registry.after calls st')).
Proof.
  intros Hk handler missing. split.
  - apply remove_missing.
  - intros f Hok st'.
    destruct (remove_existing appid name st Hk f Hok) as (_ & Hk' & Hgone).
    split; [exact Hgone|]. split.
    + now apply remove_missing.
    + intros calls Hcalls. apply remove_missing.
      now apply not_found_after.
Qed.

Lemma keyed_no_functions st : functions st = ∅ -> Registry.keyed st.
Proof. intros He k f. now rewrite He, lookup_empty. Qed.

(** [f1] is deleted; deleting it again is not found. *)
Lemma remove_twice_not_found_witness :
  let st' :=
    (run Sample.services (FunctionController.remove "A" "f1") Sample.one).1.2
  in
  (run Sample.services (FunctionController.remove "A" "f1") Sample.one).1.1
  = Returned (ResponseUtil.ok (Sample.fn "f1"))
  /\ run Sample.services (FunctionController.remove "A" "f1") st'
     = (Raised (FunctionController.notFound "f1"), st',
        [Called (FindOne "A" "f1")]).
Proof.
  destruct (remove_twice_not_found (backend := Sample.backend) "A" "f1"
              Sample.one) as [_ Hafter].
  { apply (bool_decide_unpack _). vm_compute. exact I. }
  destruct (Hafter (Sample.fn "f1") eq_refl) as (_ & Hmissing & _).
  split; [reflexivity | exact Hmissing].
Defined.

(** ** A failed compile and the deployed artifact (C4) *)

(** What [compile] does on the store. *)
Lemma run_compile `{backend : ArtifactBackend} appid name dto st :
  run Registry.services (FunctionController.compile appid name dto) st
  = if falsy_string (CompileFunctionDto.code dto) then
      (Returned (ResponseUtil.error Messages.codeRequired), st, [])
    else
      match Registry.findOne appid name st with
      | None =>
        (Raised (FunctionController.notFound name), st,
         [Called (FindOne appid name)])
      | Some func =>
        (Returned (ResponseUtil.ok (Registry.compile func dto st).1),
         (Registry.compile func dto st).2,
         [Called (FindOne appid name); Called (Compile func dto)])
      end.
Proof.
  unfold FunctionController.compile.
  destruct (falsy_string (CompileFunctionDto.code dto)); [reflexivity|].
  cbn. destruct (Registry.findOne appid name st) as [func|]; [|reflexivity].
  cbn. destruct (Registry.compile func dto st) as [res st']. reflexivity.
Qed.

(** The registry's compile either fails and leaves the store alone, or
    yields the artifact it has added. *)
Lemma compile_failed_store `{backend : ArtifactBackend} func dto st e :
  (Registry.compile func dto st).1 = CompileFailed e ->
  (Registry.compile func dto st).2 = st.
Proof.
  unfold Registry.compile, Registry.artifactCompile.
  destruct (diagnose _); cbn; [reflexivity | discriminate].
Qed.

(** C4.  Let [(appid, name)] be a function whose [currentArtifact] is
    the deployed artifact [a].  A [compile] request that does not end in
    a compiled artifact, the compiler having rejected the source or the
    request having been turned down before, leaves the store as it was:
    the function is found as before, with [currentArtifact] still [a]. *)
Theorem failed_compile_keeps_artifact
    `{backend : ArtifactBackend} (appid name : string)
    (dto : CompileFunctionDto.t) (st : Store) (f : Function) (a : Artifact) :
  Registry.findOne appid name st = Some f ->
  currentArtifact f = Some a ->
  let answer :=
    run Registry.services (FunctionController.compile appid name dto) st in
  (forall art, answer.1.1 <> Returned (ResponseUtil.ok (Compiled art))) ->
  answer.1.2 = st
  /\ Registry.findOne appid name answer.1.2 = Some f
  /\ currentArtifact <$> Registry.findOne appid name answer.1.2
     = Some (Some a).
Proof.
  intros Hf Ha answer Hfail.
  assert (Hst : answer.1.2 = st).
  { subst answer. rewrite run_compile in *.
    destruct (falsy_string (CompileFunctionDto.code dto)); [reflexivity|].
    rewrite Hf in *. cbn [fst snd] in *.
    destruct (Registry.compile f dto st).1 as [art|e] eqn:Hres.
    - now destruct (Hfail art).
    - now apply compile_failed_store with (e := e). }
  rewrite Hst, Hf. cbn. rewrite Ha. auto.
Qed.

(** [CompileFunction(A, "f1", "syntax error")] on the deployed [f1]. *)
Lemma failed_compile_keeps_artifact_witness :
  let answer :=
    run Sample.services
      (FunctionController.compile "A" "f1"
         (CompileFunctionDto.mk (Some "syntax error"))) Sample.deployed in
  answer.1.2 = Sample.deployed
  /\ currentArtifact <$> Registry.findOne "A" "f1" answer.1.2
     = Some (Some Sample.deployed_artifact).
Proof.
  destruct (failed_compile_keeps_artifact (backend := Sample.backend)
              "A" "f1" (CompileFunctionDto.mk (Some "syntax error"))
              Sample.deployed
              (mkFunction "A" "f1" "export default () => 1" 0
                 (Some Sample.deployed_artifact) false)
              Sample.deployed_artifact eq_refl eq_refl)
    as (Hstore & _ & Hartifact).
  - intros art. vm_compute. discriminate.
  - split; [exact Hstore | exact Hartifact].
Defined.

(** * Further properties of the handlers, for any services *)

(** Case analysis on how the next awaited call settles. *)
Tactic Notation "settle" constr(svc) "as" simple_intropattern(pat) :=
  match goal with
  | |- context [svc ?X ?c ?s] => destruct (svc X c s) as pat eqn:?
  end.

Section Traces.

Context {Σ : Type} (svc : @Services Σ).
Variable validate : CreateFunctionDto.t -> option string.

(** The calls of a [create] form an initial part of the four calls the
    source makes in sequence. *)
Lemma create_trace_prefix appid dto req s :
  (run svc (FunctionController.create validate appid dto req) s).2
  `prefix_of` Calls.of_create appid dto req.
Proof.
  unfold FunctionController.create, Calls.of_create.
  destruct (truthy_string (validate dto)); [apply prefix_nil|].
  cbn [run]. settle svc as [[found|e] s1]; [|by eexists].
  destruct found; [by eexists|].
  cbn [run]. settle svc as [[bundle|e] s2]; [|by eexists].
  cbn [run]. settle svc as [[count|e] s3]; [|by eexists].
  destruct (_ >=? _); [by eexists|].
  cbn [run]. settle svc as [[res|e] s4]; [|by eexists].
  destruct res; by eexists [].
Qed.

Lemma writes_prefix (tr tr' : list Event) :
  tr `prefix_of` tr' -> (Calls.writes tr <= Calls.writes tr')%nat.
Proof.
  intros [k ->]. unfold Calls.writes.
  rewrite List.filter_app, length_app. lia.
Qed.

(** The calls of [update], [remove] and [compile]: the lookup, and after
    it at most the one write, for the function the lookup resolved to. *)
Lemma update_trace_cases appid name dto s :
  let tr := (run svc (FunctionController.update appid name dto) s).2 in
  tr = [Called (FindOne appid name)]
  \/ exists func s1,
       svc _ (FindOne appid name) s = (Fulfilled (Some func), s1)
       /\ tr = [Called (FindOne appid name); Called (Update func dto)].
Proof.
  unfold FunctionController.update. cbn [run].
  settle svc as [[found|e] s1]; [|by left].
  destruct found as [func|]; [|by left].
  right. exists func, s1. split; [done|].
  cbn [run]. settle svc as [[res|e] s2]; [|done]. by destruct res.
Qed.

Lemma remove_trace_cases appid name s :
  let tr := (run svc (FunctionController.remove appid name) s).2 in
  tr = [Called (FindOne appid name)]
  \/ exists func s1,
       svc _ (FindOne appid name) s = (Fulfilled (Some func), s1)
       /\ tr = [Called (FindOne appid name); Called (Remove func)].
Proof.
  unfold FunctionController.remove. cbn [run].
  settle svc as [[found|e] s1]; [|by left].
  destruct found as [func|]; [|by left].
  right. exists func, s1. split; [done|].
  cbn [run]. settle svc as [[res|e] s2]; [|done]. by destruct res.
Qed.

Lemma compile_trace_cases appid name dto s :
  let tr := (run svc (FunctionController.compile appid name dto) s).2 in
  (falsy_string (CompileFunctionDto.code dto) = true /\ tr = [])
  \/ (falsy_string (CompileFunctionDto.code dto) = false
      /\ (tr = [Called (FindOne appid name)]
          \/ exists func s1,
               svc _ (FindOne appid name) s = (Fulfilled (Some func), s1)
               /\ tr = [Called (FindOne appid name);
                        Called (Compile func dto)])).
Proof.
  unfold FunctionController.compile.
  destruct (falsy_string (CompileFunctionDto.code dto)); [by left|].
  right. split; [done|]. cbn [run].
  settle svc as [[found|e] s1]; [|by left].
  destruct found as [func|]; [|by left].
  right. exists func, s1. split; [done|].
  cbn [run]. by settle svc as [[res|e] s2].
Qed.

Lemma findOne_trace appid name s :
  (run svc (FunctionController.findOne appid name) s).2
  = [Called (FindOne appid name)].
Proof.
  unfold FunctionController.findOne. cbn [run].
  settle svc as [[found|e] s1]; [|done]. by destruct found.
Qed.

Lemma findAll_trace appid s :
  (run svc (FunctionController.findAll appid) s).2
  = [Called (FindAll appid)].
Proof.
  unfold FunctionController.findAll. cbn [run].
  by settle svc as [[data|e] s1].
Qed.

End Traces.

(** ** The order of the calls of [create] (X1) *)

Lemma truthy_string_Some (v : option string) (c : string) :
  truthy_string v = Some c <-> v = Some c /\ c <> "".
Proof.
  destruct v as [d|]; cbn; [|split; [discriminate | intros [[=] _]]].
  destruct (decide (d = "")) as [->|Hne]; split.
  - discriminate.
  - intros [[= <-] Hc]. now destruct Hc.
  - intros [= <-]. done.
  - intros [[= <-] _]. done.
Qed.

Lemma truthy_string_None (v : option string) :
  truthy_string v = None <-> v = None \/ v = Some "".
Proof.
  destruct v as [d|]; cbn; [|split; [by left | done]].
  destruct (decide (d = "")) as [->|Hne]; split.
  - by right.
  - done.
  - discriminate.
  - intros [[=] | [= ->]]. now destruct Hne.
Qed.

(** X1.  Whatever the services answer, the calls of a [create] are an
    initial part of: lookup of the name, bundle lookup, count, create,
    in that order.  No call at all is made exactly when the DTO's own
    check yields a non-empty error text, and then the answer is that
    text and the state is untouched.  An empty error text does not stop
    the request: the handler goes on as if the check had passed. *)
Theorem create_call_order
    {Σ : Type} (svc : @Services Σ)
    (validate : CreateFunctionDto.t -> option string)
    (appid : string) (dto : CreateFunctionDto.t) (req : IRequest.t) (s : Σ) :
  let answer :=
    run svc (FunctionController.create validate appid dto req) s in
  answer.2 `prefix_of` Calls.of_create appid dto req
  /\ (answer.2 = [] <->
      exists error, validate dto = Some error /\ error <> "")
  /\ (forall error,
        validate dto = Some error -> error <> "" ->
        answer = (Returned (ResponseUtil.error (Text error)), s, []))
  /\ (validate dto = Some "" ->
      answer
      = run svc (FunctionController.create (fun _ => None) appid dto req) s).
Proof.
  intros answer. subst answer. split; [apply create_trace_prefix|].
  split; [|split].
  - unfold FunctionController.create.
    destruct (truthy_string (validate dto)) as [error|] eqn:Hv.
    + apply truthy_string_Some in Hv. split; [eauto | done].
    + split.
      * cbn [run]. settle svc as [[found|e] s1]; [|done].
        by destruct (run svc _ s1) as [[? ?] ?].
      * intros (error & Hsome & Hne).
        assert (Ht : truthy_string (validate dto) = Some error)
          by now apply truthy_string_Some.
        congruence.
  - intros error Hv Hne. apply create_invalid.
    now apply truthy_string_Some.
  - intros Hv. unfold FunctionController.create. now rewrite Hv.
Qed.

(** A request without a name is turned down by the check; a check that
    yields the empty text lets the request through to the quota check. *)
Lemma create_call_order_witness :
  run Sample.services
    (FunctionController.create
       (fun d => if decide (CreateFunctionDto.name d = "")
                 then Some "name is required" else None)
       "A" (CreateFunctionDto.mk "" "code") Sample.req) Sample.two
  = (Returned (ResponseUtil.error (Text "name is required")), Sample.two, [])
  /\ run Sample.services
       (FunctionController.create (fun _ => Some "") "A" (Sample.dto "f3")
          Sample.req) Sample.two
     = (Returned (ResponseUtil.error (Messages.maxCount 2)), Sample.two,
        Admission.checks "A" (Sample.dto "f3")).
Proof.
  split.
  - apply (create_call_order Sample.services
             (fun d => if decide (CreateFunctionDto.name d = "")
                       then Some "name is required" else None)
             "A" (CreateFunctionDto.mk "" "code") Sample.req Sample.two).
    + reflexivity.
    + discriminate.
  - destruct (create_call_order Sample.services (fun _ => Some "") "A"
                (Sample.dto "f3") Sample.req Sample.two)
      as (_ & _ & _ & Hempty).
    rewrite Hempty; reflexivity.
Defined.

(** ** The write of [create] comes only after the whole check (X2) *)

(** X2.  If a run of [create] makes a write call at all, then that call
    is the service's create for the request's application, user and DTO,
    and before it the DTO's check yielded no error text or the empty
    one, the lookup resolved to no function, and the bundle lookup and
    the count were both fulfilled with the count strictly below the
    limit derived from the bundle.  A rejected bundle lookup or count
    therefore never lets a request through, and with a count that is
    not negative only a bundle with an explicit limit above the count
    does. *)
Theorem create_write_only_after_check
    {Σ : Type} (svc : @Services Σ)
    (validate : CreateFunctionDto.t -> option string)
    (appid : string) (dto : CreateFunctionDto.t) (req : IRequest.t) (s : Σ)
    (e : Event) :
  In e (run svc (FunctionController.create validate appid dto req) s).2 ->
  is_write e = true ->
  e = Called (Create appid (IRequest.id (IRequest.user req)) dto)
  /\ (validate dto = None \/ validate dto = Some "")
  /\ exists s1 bundle s2 count s3,
       svc _ (FindOne appid (CreateFunctionDto.name dto)) s
       = (Fulfilled None, s1)
       /\ svc _ (FindApplicationBundle appid) s1 = (Fulfilled bundle, s2)
       /\ svc _ (Count appid) s2 = (Fulfilled count, s3)
       /\ count < js_or (bundle_limit bundle) 0
       /\ (0 <= count ->
           exists L, bundle_limit bundle = Some L /\ count < L).
Proof.
  unfold FunctionController.create.
  destruct (truthy_string (validate dto)) as [error|] eqn:Hv; [intros []|].
  apply truthy_string_None in Hv.
  cbn [run]. settle svc as [[found|ex] s1].
  2:{ intros [<-|[]]. discriminate. }
  destruct found as [f|].
  { intros [<-|[]]. discriminate. }
  cbn [run]. settle svc as [[bundle|ex] s2].
  2:{ intros [<-|[<-|[]]]; discriminate. }
  cbn [run]. settle svc as [[count|ex] s3].
  2:{ intros [<-|[<-|[<-|[]]]]; discriminate. }
  destruct (Z.geb_spec count (js_or (bundle_limit bundle) 0)) as [Hge|Hlt].
  { intros [<-|[<-|[<-|[]]]]; discriminate. }
  cbn [run]. intros Hin Hw.
  assert (He : e = Called (Create appid (IRequest.id (IRequest.user req)) dto)).
  { revert Hin. settle svc as [[res|ex] s4]; [destruct res|];
      intros [<-|[<-|[<-|[<-|[]]]]]; (discriminate || reflexivity). }
  split; [exact He|]. split; [exact Hv|].
  exists s1, bundle, s2, count, s3. repeat split; try assumption.
  intros Hnonneg. unfold js_or in Hlt.
  destruct (bundle_limit bundle) as [L|]; [|lia].
  exists L. split; [reflexivity|].
  destruct (Z.eqb_spec L 0); lia.
Qed.

(** A check yielding the empty text, on the application holding [f1]
    under a limit of two: the function is stored. *)
Lemma create_write_only_after_check_witness :
  ((fun _ : CreateFunctionDto.t => Some "") (Sample.dto "f2") = None
   \/ (fun _ : CreateFunctionDto.t => Some "") (Sample.dto "f2") = Some "")
  /\ exists s1 bundle s2 count s3,
       Sample.services _ (FindOne "A" "f2") Sample.one = (Fulfilled None, s1)
       /\ Sample.services _ (FindApplicationBundle "A") s1
          = (Fulfilled bundle, s2)
       /\ Sample.services _ (Count "A") s2 = (Fulfilled count, s3)
       /\ count < js_or (bundle_limit bundle) 0
       /\ (0 <= count -> exists L, bundle_limit bundle = Some L /\ count < L).
Proof.
  apply (create_write_only_after_check Sample.services (fun _ => Some "")
           "A" (Sample.dto "f2") Sample.req Sample.one
           (Called (Create "A" "u1" (Sample.dto "f2")))).
  - assert (Htrace :
      (run Sample.services
         (FunctionController.create (fun _ => Some "") "A" (Sample.dto "f2")
            Sample.req) Sample.one).2
      = Calls.of_create "A" (Sample.dto "f2") Sample.req) by reflexivity.
    rewrite Htrace. right. right. right. left. reflexivity.
  - reflexivity.
Defined.

(** ** Writes that come back empty (X3) *)

(** X3.  [create], [update] and [remove] test the value their write
    resolved to: when it is empty they answer with their own error
    message, never with [ok], and the state is the one the service left
    behind, the handler undoing nothing. *)
Theorem empty_write_reported
    {Σ : Type} (svc : @Services Σ)
    (validate : CreateFunctionDto.t -> option string) (appid : string) :
  (forall name dto s s1 s2 func,
     svc _ (FindOne appid name) s = (Fulfilled (Some func), s1) ->
     svc _ (Update func dto) s1 = (Fulfilled None, s2) ->
     run svc (FunctionController.update appid name dto) s
     = (Returned (ResponseUtil.error (i18n.t "function.update.error" [])),
        s2, [Called (FindOne appid name); Called (Update func dto)]))
  /\ (forall name s s1 s2 func,
        svc _ (FindOne appid name) s = (Fulfilled (Some func), s1) ->
        svc _ (Remove func) s1 = (Fulfilled None, s2) ->
        run svc (FunctionController.remove appid name) s
        = (Returned (ResponseUtil.error (i18n.t "function.delete.error" [])),
           s2, [Called (FindOne appid name); Called (Remove func)]))
  /\ (forall dto req s s1 bundle s2 count s3 s4,
        validate dto = None ->
        svc _ (FindOne appid (CreateFunctionDto.name dto)) s
        = (Fulfilled None, s1) ->
        svc _ (FindApplicationBundle appid) s1 = (Fulfilled bundle, s2) ->
        svc _ (Count appid) s2 = (Fulfilled count, s3) ->
        count < js_or (bundle_limit bundle) 0 ->
        svc _ (Create appid (IRequest.id (IRequest.user req)) dto) s3
        = (Fulfilled None, s4) ->
        run svc (FunctionController.create validate appid dto req) s
        = (Returned (ResponseUtil.error Messages.createError), s4,
           Calls.of_create appid dto req)).
Proof.
  split; [|split].
  - intros name dto s s1 s2 func Hfound Hupdate.
    now apply update_reports_failure with (s1 := s1).
  - intros name s s1 s2 func Hfound Hremove.
    now apply remove_reports_failure with (s1 := s1).
  - intros dto req s s1 bundle s2 count s3 s4 Hv Hfree Hb Hc Hlt Hcreate.
    exact (create_within_limit svc validate appid dto req s s1 bundle s2
             count s3 None s4 Hv Hfree Hb Hc Hlt Hcreate).
Qed.

(** [f1] exists, the writes of the services come back empty. *)
Lemma empty_write_reported_witness :
  run Outage.services
    (FunctionController.update "A" "f1" (UpdateFunctionDto.mk "new source"))
    Sample.one
  = (Returned (ResponseUtil.error (i18n.t "function.update.error" [])),
     Sample.one,
     [Called (FindOne "A" "f1");
      Called (Update (Sample.fn "f1") (UpdateFunctionDto.mk "new source"))])
  /\ run Outage.services (FunctionController.remove "A" "f1") Sample.one
     = (Returned (ResponseUtil.error (i18n.t "function.delete.error" [])),
        Sample.one,
        [Called (FindOne "A" "f1"); Called (Remove (Sample.fn "f1"))])
  /\ run Outage.services
       (FunctionController.create Sample.accept "A" (Sample.dto "f2")
          Sample.req) Sample.one
     = (Returned (ResponseUtil.error Messages.createError), Sample.one,
        Calls.of_create "A" (Sample.dto "f2") Sample.req).
Proof.
  destruct (empty_write_reported Outage.services Sample.accept "A")
    as (Hupdate & Hremove & Hcreate).
  split; [|split].
  - apply (Hupdate "f1" _ Sample.one Sample.one Sample.one (Sample.fn "f1"));
      reflexivity.
  - apply (Hremove "f1" Sample.one Sample.one Sample.one (Sample.fn "f1"));
      reflexivity.
  - apply (Hcreate (Sample.dto "f2") Sample.req Sample.one Sample.one
             (Some (Sample.bundleOf 2)) Sample.one 1 Sample.one Sample.one);
      reflexivity.
Defined.

(** ** A function that is not there (X4) *)

(** X4.  When the lookup resolves to no function, [findOne], [update],
    [remove] and, given a code body, [compile] all end the same way:
    they throw the HTTP exception with status 404 whose message carries
    the requested name, after the lookup alone; no write is attempted
    and the DTO is never looked at. *)
Theorem missing_function_not_found
    {Σ : Type} (svc : @Services Σ) (appid name : string) (s s1 : Σ) :
  svc _ (FindOne appid name) s = (Fulfilled None, s1) ->
  let thrown {R : Type} : Outcome R * Σ * list Event :=
    (Raised (HttpException
               (Translated "function.common.notFound"
                  [("name", ArgString name)]) 404),
     s1, [Called (FindOne appid name)]) in
  run svc (FunctionController.findOne appid name) s = thrown
  /\ (forall dto, run svc (FunctionController.update appid name dto) s = thrown)
  /\ run svc (FunctionController.remove appid name) s = thrown
  /\ (forall dto,
        falsy_string (CompileFunctionDto.code dto) = false ->
        run svc (FunctionController.compile appid name dto) s = thrown).
Proof.
  intros Hnone thrown. subst thrown. repeat split.
  - unfold FunctionController.findOne. cbn [run]. now rewrite Hnone.
  - intros dto. unfold FunctionController.update. cbn [run].
    now rewrite Hnone.
  - unfold FunctionController.remove. cbn [run]. now rewrite Hnone.
  - intros dto Hcode. now apply compile_not_found.
Qed.

Lemma missing_function_not_found_witness :
  run Sample.services
    (FunctionController.update "A" "f9" (UpdateFunctionDto.mk "new source"))
    Sample.one
  = (Raised (HttpException
               (Translated "function.common.notFound"
                  [("name", ArgString "f9")]) 404),
     Sample.one, [Called (FindOne "A" "f9")]).
Proof.
  apply (missing_function_not_found Sample.services "A" "f9"
           Sample.one Sample.one).
  reflexivity.
Defined.

(** ** Which function a write is for (X5) *)

(** X5.  Whatever the services answer, [update], [remove] and [compile]
    make the lookup of [(appid, name)] and after it at most one further
    call: the write, for exactly the function the lookup resolved to and
    with the DTO as received.  [compile] makes no call at all exactly
    when the code body is absent or empty. *)
Theorem write_follows_lookup
    {Σ : Type} (svc : @Services Σ) (appid name : string) (s : Σ) :
  (forall dto,
     let tr := (run svc (FunctionController.update appid name dto) s).2 in
     tr = [Called (FindOne appid name)]
     \/ exists func s1,
          svc _ (FindOne appid name) s = (Fulfilled (Some func), s1)
          /\ tr = [Called (FindOne appid name); Called (Update func dto)])
  /\ (let tr := (run svc (FunctionController.remove appid name) s).2 in
      tr = [Called (FindOne appid name)]
      \/ exists func s1,
           svc _ (FindOne appid name) s = (Fulfilled (Some func), s1)
           /\ tr = [Called (FindOne appid name); Called (Remove func)])
  /\ (forall dto,
        let tr := (run svc (FunctionController.compile appid name dto) s).2 in
        (tr = [] <-> falsy_string (CompileFunctionDto.code dto) = true)
        /\ (tr = [] \/ tr = [Called (FindOne appid name)]
            \/ exists func s1,
                 svc _ (FindOne appid name) s = (Fulfilled (Some func), s1)
                 /\ tr = [Called (FindOne appid name);
                          Called (Compile func dto)])).
Proof.
  split; [|split].
  - intros dto. apply update_trace_cases.
  - apply remove_trace_cases.
  - intros dto tr. subst tr.
    destruct (compile_trace_cases svc appid name dto s)
      as [[Hc ->] | [Hc [-> | (func & s1 & Hf & ->)]]].
    + split; [done | by left].
    + split; [split; [done | congruence] | by right; left].
    + split; [split; [done | congruence] | right; right; eauto].
Qed.

(** ** At most one write per request (X6) *)

(** X6.  Whatever the services answer, a request makes at most one write
    call: [findAll] and [findOne] make none, each of [create], [update],
    [remove] and [compile] at most one. *)
Theorem at_most_one_write
    {Σ : Type} (svc : @Services Σ)
    (validate : CreateFunctionDto.t -> option string)
    (appid name : string) (s : Σ) :
  Calls.writes (run svc (FunctionController.findAll appid) s).2 = 0%nat
  /\ Calls.writes (run svc (FunctionController.findOne appid name) s).2
     = 0%nat
  /\ (forall dto req,
        (Calls.writes
           (run svc (FunctionController.create validate appid dto req) s).2
         <= 1)%nat)
  /\ (forall dto,
        (Calls.writes
           (run svc (FunctionController.update appid name dto) s).2
         <= 1)%nat)
  /\ (Calls.writes (run svc (FunctionController.remove appid name) s).2
      <= 1)%nat
  /\ (forall dto,
        (Calls.writes
           (run svc (FunctionController.compile appid name dto) s).2
         <= 1)%nat).
Proof.
  repeat split.
  - now rewrite findAll_trace.
  - now rewrite findOne_trace.
  - intros dto req.
    apply (writes_prefix _ _ (create_trace_prefix svc validate appid dto req s)).
  - intros dto.
    destruct (update_trace_cases svc appid name dto s)
      as [-> | (func & s1 & _ & ->)]; cbn; lia.
  - destruct (remove_trace_cases svc appid name s)
      as [-> | (func & s1 & _ & ->)]; cbn; lia.
  - intros dto.
    destruct (compile_trace_cases svc appid name dto s)
      as [[_ ->] | [_ [-> | (func & s1 & _ & ->)]]]; cbn; lia.
Qed.

(** ** What the handlers throw (X7) *)

Lemma sample_services_never_reject : Calls.never_rejects Sample.services.
Proof.
  intros X call st. destruct call; cbn; eauto.
  - destruct (Registry.update func dto st); eauto.
  - destruct (Registry.remove func st); eauto.
  - destruct (Registry.compile func dto st); eauto.
Qed.

(** X7.  With services that never reject, [create] and [findAll] never
    throw: every failure of [create] is an answer.  [findOne], [update],
    [remove] and [compile] throw nothing but the not-found exception for
    the requested name, and [findAll] always answers [ok]. *)
Theorem handlers_throw_only_not_found
    {Σ : Type} (svc : @Services Σ)
    (validate : CreateFunctionDto.t -> option string)
    (appid name : string) (s : Σ) :
  Calls.never_rejects svc ->
  let settled {R : Type} (o : Outcome R) :=
    (exists r, o = Returned r)
    \/ o = Raised (FunctionController.notFound name) in
  (forall dto req,
     exists r,
       (run svc (FunctionController.create validate appid dto req) s).1.1
       = Returned r)
  /\ (exists data,
        (run svc (FunctionController.findAll appid) s).1.1
        = Returned (ResponseUtil.ok data))
  /\ settled (run svc (FunctionController.findOne appid name) s).1.1
  /\ (forall dto,
        settled (run svc (FunctionController.update appid name dto) s).1.1)
  /\ settled (run svc (FunctionController.remove appid name) s).1.1
  /\ (forall dto,
        settled (run svc (FunctionController.compile appid name dto) s).1.1).
Proof.
  intros Hsvc settled. subst settled.
  assert (Hstep : forall X (call : ServiceCall X) s0,
            exists v s', svc X call s0 = (Fulfilled v, s')) by exact Hsvc.
  repeat split.
  - intros dto req. unfold FunctionController.create.
    destruct (truthy_string (validate dto)); [by eexists|]. cbn [run].
    destruct (Hstep _ (FindOne appid (CreateFunctionDto.name dto)) s)
      as (found & s1 & ->).
    destruct found; [by eexists|]. cbn [run].
    destruct (Hstep _ (FindApplicationBundle appid) s1) as (bundle & s2 & ->).
    cbn [run]. destruct (Hstep _ (Count appid) s2) as (count & s3 & ->).
    destruct (_ >=? _); [by eexists|]. cbn [run].
    destruct (Hstep _ (Create appid (IRequest.id (IRequest.user req)) dto) s3)
      as (res & s4 & ->).
    destruct res; by eexists.
  - unfold FunctionController.findAll. cbn [run].
    destruct (Hstep _ (FindAll appid) s) as (data & s1 & ->). by eexists.
  - unfold FunctionController.findOne. cbn [run].
    destruct (Hstep _ (FindOne appid name) s) as (found & s1 & ->).
    destruct found; [left; by eexists | by right].
  - intros dto. unfold FunctionController.update. cbn [run].
    destruct (Hstep _ (FindOne appid name) s) as (found & s1 & ->).
    destruct found as [func|]; [|by right]. cbn [run].
    destruct (Hstep _ (Update func dto) s1) as (res & s2 & ->).
    left. destruct res; by eexists.
  - unfold FunctionController.remove. cbn [run].
    destruct (Hstep _ (FindOne appid name) s) as (found & s1 & ->).
    destruct found as [func|]; [|by right]. cbn [run].
    destruct (Hstep _ (Remove func) s1) as (res & s2 & ->).
    left. destruct res; by eexists.
  - intros dto. unfold FunctionController.compile.
    destruct (falsy_string _); [left; by eexists|]. cbn [run].
    destruct (Hstep _ (FindOne appid name) s) as (found & s1 & ->).
    destruct found as [func|]; [|by right]. cbn [run].
    destruct (Hstep _ (Compile func dto) s1) as (res & s2 & ->).
    left. by eexists.
Qed.

Lemma handlers_throw_only_not_found_witness :
  (exists r,
     (run Sample.services
        (FunctionController.create Sample.accept "A" (Sample.dto "f3")
           Sample.req) Sample.two).1.1
     = Returned r)
  /\ ((exists r,
         (run Sample.services (FunctionController.remove "A" "f9")
            Sample.two).1.1 = Returned r)
      \/ (run Sample.services (FunctionController.remove "A" "f9")
            Sample.two).1.1
         = Raised (FunctionController.notFound "f9")).
Proof.
  destruct (handlers_throw_only_not_found Sample.services Sample.accept
              "A" "f9" Sample.two sample_services_never_reject)
    as (Hcreate & _ & _ & _ & Hremove & _).
  split; [apply Hcreate | exact Hremove].
Defined.

(** ** The name check of [create] and the lookup of [findOne] (X8) *)

(** X8.  On the same state, for a request that passes the DTO's check,
    [create] answers with the name-exists error exactly when [findOne]
    for the same application and name answers [ok]: a name is refused as
    taken if and only if the function can be fetched. *)
Theorem name_taken_iff_found
    {Σ : Type} (svc : @Services Σ)
    (validate : CreateFunctionDto.t -> option string)
    (appid : string) (dto : CreateFunctionDto.t) (req : IRequest.t) (s : Σ) :
  validate dto = None ->
  (run svc (FunctionController.create validate appid dto req) s).1.1
  = Returned (ResponseUtil.error
                (Messages.nameExist (CreateFunctionDto.name dto)))
  <-> exists f,
        (run svc (FunctionController.findOne appid
                    (CreateFunctionDto.name dto)) s).1.1
        = Returned (ResponseUtil.ok f).
Proof.
  intros Hv. unfold FunctionController.create, FunctionController.findOne.
  rewrite Hv. cbn [run truthy_string].
  settle svc as [[found|e] s1].
  2:{ split; [discriminate | intros [f [=]]]. }
  destruct found as [f|].
  { split; [by exists f | reflexivity]. }
  split; [|intros [f [=]]].
  cbn [run]. settle svc as [[bundle|e] s2]; [|discriminate].
  cbn [run]. settle svc as [[count|e] s3]; [|discriminate].
  destruct (_ >=? _); [discriminate|].
  cbn [run]. settle svc as [[res|e] s4]; [|discriminate].
  destruct res; discriminate.
Qed.

Lemma name_taken_iff_found_witness :
  (run Sample.services
     (FunctionController.create Sample.accept "A" (Sample.dto "f1")
        Sample.req) Sample.two).1.1
  = Returned (ResponseUtil.error (Messages.nameExist "f1"))
  <-> exists f,
        (run Sample.services (FunctionController.findOne "A" "f1")
           Sample.two).1.1
        = Returned (ResponseUtil.ok f).
Proof.
  apply (name_taken_iff_found Sample.services Sample.accept "A"
           (Sample.dto "f1") Sample.req Sample.two).
  reflexivity.
Defined.
